(** * Crafty's [Text] component (src/text.js)

    A shallow embedding of the component registered by [Crafty.c("Text", ...)]:
    its [init] function, the handler it binds to "Draw", and the methods
    [text], [textColor], [textFont] and [unselectable].

    JavaScript values are a small inductive type; numbers are IEEE binary64
    floats, as in the language.  The font descriptor [_textFont] and the
    element's style object are finite maps from property names to values
    (own properties only: the prototype of the descriptor is
    [Object.prototype], and neither what it holds nor a prototype put in its
    place is part of the model).
    Everything the component calls but does not define (the event bus, the
    colour utility, the DOM component's [css], user supplied text generators,
    the canvas context) is a parameter of the development or is recorded in a
    log of calls.  A text generator is a function of the entity it is called
    on.  The properties [_text: ""] and [ready: true], which the framework
    copies onto the entity before [init] runs, play no part below. *)

From Stdlib Require Import Floats.
From stdpp Require Import gmap strings list fin_maps.

Module Text.

(** ** JavaScript values *)

(** Function objects are opaque: a function value is a name, and what calling
    it returns is given by the environment (see [call] below). *)
Definition fid := nat.

#[warnings="-register-all"]
Inductive value : Type :=
| VUndefined
| VNull
| VBool (b : bool)
| VNum (n : float)
| VStr (s : string)
| VObj (props : list (string * value))   (* enumerable properties, in for-in order *)
| VFun (f : fid).

(** [typeof v] *)
Definition typeof (v : value) : string :=
  match v with
  | VUndefined => "undefined"
  | VNull => "object"
  | VBool _ => "boolean"
  | VNum _ => "number"
  | VStr _ => "string"
  | VObj _ => "object"
  | VFun _ => "function"
  end.

(** [v === null] *)
Definition is_null (v : value) : bool :=
  match v with VNull => true | _ => false end.

(** [v === s] for a string literal [s]: strict equality never coerces. *)
Definition strict_eq_str (v : value) (s : string) : bool :=
  match v with VStr s' => String.eqb s' s | _ => false end.

(** The truthiness test behind [||]. *)
Definition ToBoolean (v : value) : bool :=
  match v with
  | VUndefined | VNull => false
  | VBool b => b
  | VNum n => negb (PrimFloat.is_zero n || PrimFloat.is_nan n)
  | VStr s => negb (String.eqb s "")
  | VObj _ | VFun _ => true
  end.

(** [a || b] *)
Definition js_or (a b : value) : value :=
  if ToBoolean a then a else b.

(** The [i]-th actual argument of a call; a missing argument reads as
    [undefined]. *)
Definition arg (i : nat) (arguments : list value) : value :=
  nth i arguments VUndefined.

(** [for (k in o)]: the property names visited, in order.  Nothing is visited
    for [null] and for primitive values. *)
Definition for_in_keys (o : value) : list string :=
  match o with
  | VObj props => props.*1
  | _ => []
  end.

(** [o[k]] for the argument object of [textFont]. *)
Definition get_property (o : value) (k : string) : value :=
  match o with
  | VObj props => default VUndefined ((list_to_map props : gmap string value) !! k)
  | _ => VUndefined
  end.

(** [m[k]] on a property map: an absent property reads as [undefined] (what
    a name inherits from the prototype is not modelled). *)
Definition get (m : gmap string value) (k : string) : value :=
  default VUndefined (m !! k).

(** [m[k] = v] on the descriptor.  A name other than "__proto__" becomes an
    own property, created or overwritten.  The name "__proto__" is an
    accessor of [Object.prototype]: unless the descriptor has an own property
    of that name, the assignment stores no property (an object or null
    replaces the prototype, any other value is ignored). *)
Definition assign (m : gmap string value) (k : string) (v : value) :
    gmap string value :=
  if decide (k = "__proto__") then
    match m !! k with
    | Some _ => <[k := v]> m
    | None => m
    end
  else <[k := v]> m.

(** ** The objects the component touches *)

(** The DOM element of the entity: its [style] object and its content. *)
Record element : Type := {
  style : gmap string value;
  innerHTML : value
}.

(** The canvas 2D context is known only through the calls made on it; a
    context is the history of those calls, oldest first. *)
Inductive ctx_op : Type :=
| save
| set_fillStyle (v : value)
| set_font (v : value)
| translate (tx ty : float)
| fillText (t : value) (tx ty : float)
| measureText (t : value)
| restore.

Definition context := list ctx_op.

(** The result of [context.measureText]. *)
Record TextMetrics : Type := { width : float }.

(** The entity, as far as text.js reads or writes it. *)
Record entity : Type := {
  _text : value;
  _textFont : gmap string value;
  _textColor : value;
  _strength : value;
  x : float;
  y : float;
  h : float;
  _w : float;
  __c : gset string;          (* the components of the entity *)
  _element : element
}.

Definition set__text (v : value) (e : entity) : entity :=
  {| _text := v; _textFont := _textFont e; _textColor := _textColor e;
     _strength := _strength e; x := x e; y := y e; h := h e; _w := _w e;
     __c := __c e; _element := _element e |}.

Definition set__textFont (m : gmap string value) (e : entity) : entity :=
  {| _text := _text e; _textFont := m; _textColor := _textColor e;
     _strength := _strength e; x := x e; y := y e; h := h e; _w := _w e;
     __c := __c e; _element := _element e |}.

Definition set__textColor (v : value) (e : entity) : entity :=
  {| _text := _text e; _textFont := _textFont e; _textColor := v;
     _strength := _strength e; x := x e; y := y e; h := h e; _w := _w e;
     __c := __c e; _element := _element e |}.

Definition set__strength (v : value) (e : entity) : entity :=
  {| _text := _text e; _textFont := _textFont e; _textColor := _textColor e;
     _strength := v; x := x e; y := y e; h := h e; _w := _w e;
     __c := __c e; _element := _element e |}.

Definition set__w (n : float) (e : entity) : entity :=
  {| _text := _text e; _textFont := _textFont e; _textColor := _textColor e;
     _strength := _strength e; x := x e; y := y e; h := h e; _w := n;
     __c := __c e; _element := _element e |}.

Definition set__element (el : element) (e : entity) : entity :=
  {| _text := _text e; _textFont := _textFont e; _textColor := _textColor e;
     _strength := _strength e; x := x e; y := y e; h := h e; _w := _w e;
     __c := __c e; _element := el |}.

(** [this.has(c)] *)
Definition has (c : string) (e : entity) : bool :=
  bool_decide (c ∈ __c e).

(** Calls the component makes on its collaborators, in order. *)
Inductive event : Type :=
| Requires (c : string)               (* this.requires(c) *)
| Bind (ev : string)                  (* this.bind(ev, handler) *)
| Trigger (ev : string)               (* this.trigger(ev) *)
| Css (map : value)                   (* this.css(map) *)
| Call (f : fid) (receiver : entity). (* f.call(receiver) *)

(** The state a method runs in: the entity it is called on, the global
    variable [propertyKey] that [textFont] assigns (its loop variable is not
    declared), and the calls made so far. *)
Record world : Type := {
  this : entity;
  propertyKey : value;
  emitted : list event
}.

Definition emit (ev : event) (w : world) : world :=
  {| this := this w; propertyKey := propertyKey w; emitted := emitted w ++ [ev] |}.

Definition set_this (e : entity) (w : world) : world :=
  {| this := e; propertyKey := propertyKey w; emitted := emitted w |}.

Definition set_propertyKey (v : value) (w : world) : world :=
  {| this := this w; propertyKey := v; emitted := emitted w |}.

(** What a method returns: [this] (for chaining) or a value. *)
Inductive result : Type :=
| RThis
| RValue (v : value).

(** The event object passed to the "Draw" handler. *)
Record draw_event : Type := {
  type : value;
  ctx : context
}.

(** Component properties that text.js defines and never assigns. *)
Definition defaultSize : value := VStr "10px".
Definition defaultFamily : value := VStr "sans-serif".

(** ** Calls and notifications *)

(** What can happen to an entity that has the component: a call of one of the
    four methods, or a "Draw" notification of some type.  All notifications
    carry the same canvas context. *)
Inductive op : Type :=
| op_text (arguments : list value)
| op_textColor (arguments : list value)
| op_textFont (arguments : list value)
| op_unselectable
| op_Draw (ty : value).

(** ** Sample entities and collaborators *)

(** Collaborators to run the component with. *)
Definition toRGB_red (color strength : value) : value := VStr "rgb(255,0,0)".
Definition describe_colour (f : fid) (e : entity) : value :=
  match _textColor e with VUndefined => VStr "no colour" | _ => VStr "coloured" end.
Definition object_string (v : value) : string := "[object Object]".
Definition twelve_wide (c : context) (t : value) : TextMetrics :=
  {| width := 12%float |}.
Definition css_user_select (map : value) (el : element) : element :=
  {| style := <["userSelect" := get_property map "user-select"]> (style el);
     innerHTML := innerHTML el |}.

(** A canvas entity at (10, 20) of height 5 with the text "hi", as [init]
    leaves its descriptor and with no colour set. *)
Definition hi : entity :=
  {| _text := VStr "hi";
     _textFont := <["type" := VStr ""]> (<["weight" := VStr ""]>
                    (<["size" := VStr ""]> (<["family" := VStr ""]> ∅)));
     _textColor := VUndefined;
     _strength := VUndefined;
     x := 10%float; y := 20%float; h := 5%float; _w := 0%float;
     __c := {["2D"; "Canvas"; "Text"]};
     _element := {| style := ∅; innerHTML := VUndefined |} |}.

Definition hi_world : world :=
  {| this := hi; propertyKey := VUndefined; emitted := [] |}.

(** The same text on a DOM entity, in red. *)
Definition hi_dom : world :=
  {| this :=
       {| _text := VStr "hi"; _textFont := _textFont hi;
          _textColor := VStr "rgb(255,0,0)"; _strength := VUndefined;
          x := 10%float; y := 20%float; h := 5%float; _w := 0%float;
          __c := {["2D"; "DOM"; "Text"]};
          _element := {| style := ∅; innerHTML := VUndefined |} |};
     propertyKey := VUndefined;
     emitted := [] |}.

(** The descriptor {type: "", weight: "bold", size: "", family: ""}. *)
Definition bold : entity :=
  set__textFont (<["weight" := VStr "bold"]> (_textFont hi)) hi.

(** A session that sets type and weight and never names size or family. *)
Definition session : list op :=
  [op_text [VStr "hello"];
   op_textFont [VObj [("type", VStr "italic")]];
   op_textFont [VStr "weight"; VStr "bold"];
   op_textColor [VStr "#FF0000"];
   op_Draw (VStr "canvas");
   op_unselectable;
   op_textFont [VStr "size"];
   op_textFont [VNum 5%float]].

(** The DOM entity with a style property set by other means. *)
Definition hi_centered : world :=
  set_this (set__element {| style := {["textAlign" := VStr "center"]};
                            innerHTML := VUndefined |} (this hi_dom)) hi_dom.

(** Calls and notifications that do not set the text. *)
Definition restyle : list op :=
  [op_textFont [VStr "size"; VStr "20px"];
   op_Draw (VStr "canvas");
   op_textColor [VStr "#00FF00"]].

Section Component.

(** ** Collaborators *)

(** [Crafty.toRGB(color, strength)] *)
Variable Crafty_toRGB : value -> value -> value.

(** The value a text generator returns when called with the entity as [this]. *)
Variable call : fid -> entity -> value.

(** String conversion of numbers, objects and functions. *)
Variable ToString_other : value -> string.

(** [context.measureText(t)] on a context with the given history. *)
Variable measure : context -> value -> TextMetrics.

(** What the DOM component's [css(map)] does to the entity's element.  The
    method is not part of text.js: the call is logged, its effect on the
    element is this parameter, and what it may trigger itself is not part of
    the model. *)
Variable css : value -> element -> element.

(** ** String conversion and concatenation *)

Definition ToString (v : value) : string :=
  match v with
  | VStr s => s
  | VUndefined => "undefined"
  | VNull => "null"
  | VBool true => "true"
  | VBool false => "false"
  | VNum _ | VObj _ | VFun _ => ToString_other v
  end.

(** [a + b] when one of the operands is a string: both are converted and
    concatenated. *)
Definition concat (a b : value) : value :=
  VStr (ToString a +:+ ToString b).

(** ** init *)

Definition init (w : world) : world :=
  let w := emit (Requires "2D") w in
  let w := set_this (set__textFont
             (<["type" := VStr ""]> (<["weight" := VStr ""]>
               (<["size" := VStr ""]> (<["family" := VStr ""]> ∅))))
             (this w)) w in
  emit (Bind "Draw") w.

(** ** The "Draw" handler *)

(** Line 38: the font string, built left to right. *)
Definition font (e : entity) : value :=
  concat (concat (concat (concat (concat (concat
    (get (_textFont e) "type") (VStr " "))
    (get (_textFont e) "weight")) (VStr " "))
    (js_or (get (_textFont e) "size") defaultSize)) (VStr " "))
    (js_or (get (_textFont e) "family") defaultFamily).

(** The handler returns the world and the context of the event, both as the
    handler leaves them. *)
Definition Draw (e : draw_event) (w : world) : world * context :=
  let font := font (this w) in
  if strict_eq_str (type e) "DOM" then
    let el := _element (this w) in
    let style := style el in
    let style := <["color" := _textColor (this w)]> style in
    let style := <["font" := font]> style in
    let el := {| style := style; innerHTML := _text (this w) |} in
    (set_this (set__element el (this w)) w, ctx e)
  else if strict_eq_str (type e) "canvas" then
    let context := ctx e in
    let context := context ++ [save] in
    let context := context ++ [set_fillStyle (js_or (_textColor (this w)) (VStr "rgb(0,0,0)"))] in
    let context := context ++ [set_font font] in
    let context := context ++ [translate (x (this w)) (y (this w) + h (this w))%float] in
    let context := context ++ [fillText (_text (this w)) 0%float 0%float] in
    let metrics := measure context (_text (this w)) in
    let context := context ++ [measureText (_text (this w))] in
    let w := set_this (set__w (width metrics) (this w)) w in
    let context := context ++ [restore] in
    (w, context)
  else (w, ctx e).

(** ** text *)

Definition text (arguments : list value) (w : world) : result * world :=
  let text := arg 0 arguments in
  if negb (negb (String.eqb (typeof text) "undefined") && negb (is_null text))
  then (RValue (_text (this w)), w)
  else
    let w :=
      match text with
      | VFun f =>   (* typeof text == "function" *)
          let r := call f (this w) in
          let w := emit (Call f (this w)) w in
          set_this (set__text r (this w)) w
      | _ => set_this (set__text text (this w)) w
      end in
    let w := emit (Trigger "Change") w in
    (RThis, w).

(** ** textColor *)

Definition textColor (arguments : list value) (w : world) : result * world :=
  let color := arg 0 arguments in
  let strength := arg 1 arguments in
  let w := set_this (set__strength strength (this w)) w in
  let w := set_this (set__textColor (Crafty_toRGB color (_strength (this w))) (this w)) w in
  let w := emit (Trigger "Change") w in
  (RThis, w).

(** ** textFont *)

(** One iteration of [for (propertyKey in key)]. *)
Definition textFont_iter (key : value) (w : world) (k : string) : world :=
  let w := set_propertyKey (VStr k) w in
  set_this (set__textFont (assign (_textFont (this w)) k (get_property key k)) (this w)) w.

Definition textFont (arguments : list value) (w : world) : result * world :=
  let key := arg 0 arguments in
  let value := arg 1 arguments in
  if Nat.eqb (length arguments) 1 then
    if String.eqb (typeof key) "string" then
      (RValue (get (_textFont (this w)) (ToString key)), w)
    else
      let w :=
        if String.eqb (typeof key) "object"
        then fold_left (textFont_iter key) (for_in_keys key) w
        else w in
      (RThis, emit (Trigger "Change") w)
  else
    let w := set_this (set__textFont (assign (_textFont (this w)) (ToString key) value) (this w)) w in
    (RThis, emit (Trigger "Change") w).

(** The descriptor after the assignments of the loop, taken alone. *)
Definition merged (key : value) (ks : list string) (m : gmap string value) :
    gmap string value :=
  fold_left (fun m k => assign m k (get_property key k)) ks m.

(** ** unselectable *)

Definition unselectable_css : value :=
  VObj [("-webkit-touch-callout", VStr "none");
        ("-webkit-user-select", VStr "none");
        ("-khtml-user-select", VStr "none");
        ("-moz-user-select", VStr "none");
        ("-ms-user-select", VStr "none");
        ("user-select", VStr "none")].

Definition unselectable (w : world) : result * world :=
  if has "DOM" (this w) then
    let w := emit (Css unselectable_css) w in
    let w := set_this (set__element (css unselectable_css (_element (this w))) (this w)) w in
    let w := emit (Trigger "Change") w in
    (RThis, w)
  else (RThis, w).

(** ** Sequences of calls *)

Definition step (o : op) (s : world * context) : world * context :=
  match o with
  | op_text arguments => ((text arguments s.1).2, s.2)
  | op_textColor arguments => ((textColor arguments s.1).2, s.2)
  | op_textFont arguments => ((textFont arguments s.1).2, s.2)
  | op_unselectable => ((unselectable s.1).2, s.2)
  | op_Draw ty => Draw {| type := ty; ctx := s.2 |} s.1
  end.

Definition run (os : list op) (s : world * context) : world * context :=
  fold_left (fun s o => step o s) os s.

(** ** Vocabulary of the specification *)

(** The number of "Change" notifications in a log. *)
Definition is_Change (ev : event) : bool :=
  match ev with Trigger n => String.eqb n "Change" | _ => false end.

Definition changes (l : list event) : nat :=
  length (List.filter is_Change l).

(** The calls made on a text generator in a log. *)
Definition is_Call (ev : event) : bool :=
  match ev with Call _ _ => true | _ => false end.

Definition calls (l : list event) : list event :=
  List.filter is_Call l.

(** The mutating call shapes: [text] with an argument that is set,
    [textColor], [textFont] with a key and a value or with one object, and
    [unselectable] on an entity that has the DOM component. *)
Definition mutating (o : op) (w : world) : bool :=
  match o with
  | op_text arguments =>
      match arg 0 arguments with VUndefined | VNull => false | _ => true end
  | op_textColor _ => true
  | op_textFont [VObj _] => true
  | op_textFont [_; _] => true
  | op_textFont _ => false
  | op_unselectable => has "DOM" (this w)
  | op_Draw _ => false
  end.

(** The getter shapes: [text()] and [textFont(key)] with a string key. *)
Definition getter (o : op) : bool :=
  match o with
  | op_text [] => true
  | op_textFont [VStr _] => true
  | _ => false
  end.

(** The property names a call of [textFont] assigns in the descriptor. *)
Definition textFont_keys (arguments : list value) : list string :=
  match arguments with
  | [key] =>
      match key with
      | VStr _ => []
      | _ => for_in_keys key
      end
  | _ => [ToString (arg 0 arguments)]
  end.

(** A call that leaves the field [k] of the descriptor to its caller. *)
Definition leaves (k : string) (o : op) : Prop :=
  match o with
  | op_textFont arguments => k ∉ textFont_keys arguments
  | _ => True
  end.

(** ** Further vocabulary *)

(** The value a call [text(v)] stores for a set argument [v]: what a function
    returns for the entity, and any other value as it is. *)
Definition resolved (v : value) (e : entity) : value :=
  match v with
  | VFun f => call f e
  | _ => v
  end.

(** The calls that reach a [this.trigger("Change")]: by the guards of the
    source, every call but [text] with an argument that is undefined or null,
    [textFont] with exactly one argument that is a string, and [unselectable]
    on an entity without the DOM component. *)
Definition notifies (e : entity) (o : op) : bool :=
  match o with
  | op_text arguments =>
      negb (String.eqb (typeof (arg 0 arguments)) "undefined"
            || is_null (arg 0 arguments))
  | op_textColor _ => true
  | op_textFont arguments =>
      negb (Nat.eqb (length arguments) 1
            && String.eqb (typeof (arg 0 arguments)) "string")
  | op_unselectable => has "DOM" e
  | op_Draw _ => false
  end.

(** The depth of the stack of saved states of a context that starts at depth
    [d] and receives the calls [c]: [save] pushes, [restore] pops, and a
    [restore] on an empty stack has nothing to undo, which [None] reports. *)
Fixpoint depth (d : nat) (c : context) : option nat :=
  match c with
  | [] => Some d
  | save :: c => depth (S d) c
  | restore :: c => match d with 0 => None | S d => depth d c end
  | _ :: c => depth d c
  end.

(** The "Draw" notifications of the two kinds the handler knows. *)
Definition is_canvas_draw (o : op) : bool :=
  match o with op_Draw ty => strict_eq_str ty "canvas" | _ => false end.

Definition is_DOM_draw (o : op) : bool :=
  match o with op_Draw ty => strict_eq_str ty "DOM" | _ => false end.

Definition is_text_call (o : op) : bool :=
  match o with op_text _ => true | _ => false end.

Definition is_textColor_call (o : op) : bool :=
  match o with op_textColor _ => true | _ => false end.

Definition is_textFont_call (o : op) : bool :=
  match o with op_textFont _ => true | _ => false end.

Definition is_unselectable_call (o : op) : bool :=
  match o with op_unselectable => true | _ => false end.

(** [textFont(k, v)] for each property of [props] in turn. *)
Definition textFont_each (props : list (string * value)) (w : world) : world :=
  fold_left (fun w kv => (textFont [VStr kv.1; kv.2] w).2) props w.

(** ** Basic facts *)

Lemma append_assoc (s1 s2 s3 : string) :
  (s1 +:+ s2) +:+ s3 = s1 +:+ (s2 +:+ s3).
Proof.
  induction s1 as [|a s1 IH]; [reflexivity|].
  change (String a ((s1 +:+ s2) +:+ s3) = String a (s1 +:+ (s2 +:+ s3))).
  by rewrite IH.
Qed.

Lemma assign_insert (m : gmap string value) (k : string) (v : value) :
  k ≠ "__proto__" -> assign m k v = <[k := v]> m.
Proof. intros Hk. unfold assign. by case_decide. Qed.

Lemma assign_lookup_ne (m : gmap string value) (k k' : string) (v : value) :
  k ≠ k' -> assign m k v !! k' = m !! k'.
Proof.
  intros Hne. unfold assign.
  case_decide; [destruct (m !! k)|]; by rewrite ?lookup_insert_ne.
Qed.

Lemma assign_lookup_eq (m : gmap string value) (k : string) (v : value) :
  k ≠ "__proto__" -> assign m k v !! k = Some v.
Proof. intros Hk. rewrite assign_insert by done. apply lookup_insert_eq. Qed.


Lemma js_or_truthy (a b : value) : ToBoolean a = true -> js_or a b = a.
Proof. unfold js_or. by intros ->. Qed.

Lemma js_or_str (s : string) (b : value) :
  js_or (VStr s) b = if decide (s = "") then b else VStr s.
Proof.
  unfold js_or. simpl. destruct (String.eqb_spec s ""); by case_decide.
Qed.

(** The font string, flattened. *)
Lemma font_flat (e : entity) :
  font e = VStr (ToString (get (_textFont e) "type") +:+ " " +:+
                 ToString (get (_textFont e) "weight") +:+ " " +:+
                 ToString (js_or (get (_textFont e) "size") defaultSize) +:+ " " +:+
                 ToString (js_or (get (_textFont e) "family") defaultFamily)).
Proof.
  unfold font, concat. cbn [ToString]. by rewrite !append_assoc.
Qed.

Lemma text_getter (w : world) : text [] w = (RValue (_text (this w)), w).
Proof. reflexivity. Qed.

Lemma run_cons (o : op) (os : list op) (s : world * context) :
  run (o :: os) s = run os (step o s).
Proof. reflexivity. Qed.

(** *** The loop of [textFont] *)

Lemma textFont_loop (key : value) (ks : list string) (w : world) :
  fold_left (textFont_iter key) ks w =
  {| this := set__textFont (merged key ks (_textFont (this w))) (this w);
     propertyKey := default (propertyKey w) (VStr <$> last ks);
     emitted := emitted w |}.
Proof.
  revert w. induction ks as [|k ks IH]; intros w.
  - by destruct w as [[] ? ?].
  - cbn [fold_left]. rewrite IH. unfold merged. cbn [fold_left].
    f_equal. destruct ks as [|k' ks]; [done|].
    change (last (k :: k' :: ks)) with (last (k' :: ks)).
    destruct (last (k' :: ks)) eqn:E; [done|]. by apply last_None in E.
Qed.

Lemma merged_cons (key : value) (a : string) (ks : list string)
    (m : gmap string value) :
  merged key (a :: ks) m = merged key ks (assign m a (get_property key a)).
Proof. reflexivity. Qed.

Lemma merged_lookup_notin (key : value) (ks : list string)
    (m : gmap string value) (k : string) :
  k ∉ ks -> merged key ks m !! k = m !! k.
Proof.
  revert m. induction ks as [|a ks IH]; intros m Hk; [done|].
  apply not_elem_of_cons in Hk as [Hne Hk].
  rewrite merged_cons, IH by done. by apply assign_lookup_ne.
Qed.




Lemma textFont_object_emitted (props : list (string * value)) (w : world) :
  emitted (textFont [VObj props] w).2 = emitted w ++ [Trigger "Change"].
Proof.
  unfold textFont. cbn [length Nat.eqb arg nth typeof].
  change (String.eqb "object" "string") with false.
  change (String.eqb "object" "object") with true. cbv iota.
  by rewrite textFont_loop.
Qed.

(** *** What a "Draw" notification leaves alone *)

Lemma Draw_frame (ev : draw_event) (w : world) :
  emitted (Draw ev w).1 = emitted w
  ∧ propertyKey (Draw ev w).1 = propertyKey w
  ∧ _text (this (Draw ev w).1) = _text (this w)
  ∧ _textFont (this (Draw ev w).1) = _textFont (this w).
Proof.
  unfold Draw.
  destruct (strict_eq_str (type ev) "DOM"); [done|].
  by destruct (strict_eq_str (type ev) "canvas").
Qed.

Lemma draws_frame (tys : list value) (s : world * context) :
  emitted (run (op_Draw <$> tys) s).1 = emitted s.1
  ∧ _text (this (run (op_Draw <$> tys) s).1) = _text (this s.1).
Proof.
  revert s. induction tys as [|ty tys IH]; intros s; [done|].
  rewrite fmap_cons, run_cons.
  destruct (IH (step (op_Draw ty) s)) as [-> ->].
  cbn [step]. by destruct (Draw_frame {| type := ty; ctx := s.2 |} s.1) as (-> & _ & -> & _).
Qed.

(** *** Calls that leave a field of the descriptor alone *)

Lemma step_leaves (k : string) (o : op) (s : world * context) :
  leaves k o ->
  _textFont (this (step o s).1) !! k = _textFont (this s.1) !! k.
Proof.
  destruct o as [args|args|args| |ty]; cbn [leaves step fst snd].
  - intros _. unfold text. by destruct (arg 0 args).
  - done.
  - intros Hk. destruct args as [|key [|v args]].
    + cbn in Hk |- *. apply assign_lookup_ne.
      intros Heq. apply Hk. rewrite Heq. by left.
    + destruct key; try done; cbn [textFont_keys for_in_keys] in Hk.
      unfold textFont. cbn [length Nat.eqb arg nth typeof].
      change (String.eqb "object" "string") with false.
      change (String.eqb "object" "object") with true. cbv iota.
      rewrite textFont_loop. cbn [for_in_keys emit this set__textFont _textFont snd].
      by apply merged_lookup_notin.
    + cbn in Hk |- *. apply assign_lookup_ne.
      intros Heq. apply Hk. rewrite Heq. by left.
  - intros _. unfold unselectable. by destruct (has "DOM" (this s.1)).
  - intros _. by destruct (Draw_frame {| type := ty; ctx := s.2 |} s.1) as (_ & _ & _ & ->).
Qed.


Lemma run_leaves (k : string) (os : list op) (s : world * context) :
  Forall (leaves k) os ->
  _textFont (this (run os s).1) !! k = _textFont (this s.1) !! k.
Proof.
  revert s. induction os as [|o os IH]; intros s Hos; [done|].
  apply Forall_cons in Hos as [Ho Hos].
  rewrite run_cons, IH by done.
  by apply step_leaves.
Qed.

(** ** The "Draw" handler *)

(** C1: on a canvas "Draw" notification the handler calls, in this order,
    [save], the [fillStyle] setter with the text colour (or "rgb(0,0,0)" when
    the colour is unset), the [font] setter with the composed font string,
    [translate(x, y + h)], [fillText(_text, 0, 0)], [measureText(_text)] and
    [restore]; the only other effect is that [_w] becomes the measured width,
    whatever it was before: reading [_w] after the notification gives that
    width.  For x = 10, y = 20 and h = 5 the translation is by (10, 25). *)
Theorem C1_canvas_draw_sequence (c : context) (w : world) :
  let e := this w in
  let fill := js_or (_textColor e) (VStr "rgb(0,0,0)") in
  let painted :=
    c ++ [save; set_fillStyle fill; set_font (font e);
          translate (x e) (y e + h e)%float;
          fillText (_text e) 0%float 0%float] in
  Draw {| type := VStr "canvas"; ctx := c |} w
  = (set_this (set__w (width (measure painted (_text e))) e) w,
     painted ++ [measureText (_text e); restore])
  ∧ (_textColor e = VUndefined -> fill = VStr "rgb(0,0,0)")
  ∧ (ToBoolean (_textColor e) = true -> fill = _textColor e)
  ∧ (x e = 10%float -> y e = 20%float -> h e = 5%float ->
     painted = c ++ [save; set_fillStyle fill; set_font (font e);
                     translate 10%float 25%float;
                     fillText (_text e) 0%float 0%float])
  ∧ _w (this (Draw {| type := VStr "canvas"; ctx := c |} w).1)
    = width (measure painted (_text e)).
Proof.
  cbv zeta.
  assert (Draw {| type := VStr "canvas"; ctx := c |} w
          = (set_this
               (set__w (width (measure
                  (c ++ [save;
                         set_fillStyle (js_or (_textColor (this w)) (VStr "rgb(0,0,0)"));
                         set_font (font (this w));
                         translate (x (this w)) (y (this w) + h (this w))%float;
                         fillText (_text (this w)) 0%float 0%float])
                  (_text (this w)))) (this w)) w,
             (c ++ [save;
                    set_fillStyle (js_or (_textColor (this w)) (VStr "rgb(0,0,0)"));
                    set_font (font (this w));
                    translate (x (this w)) (y (this w) + h (this w))%float;
                    fillText (_text (this w)) 0%float 0%float])
             ++ [measureText (_text (this w)); restore])) as Heq.
  { unfold Draw. cbn [type ctx strict_eq_str]. cbv zeta.
    change (String.eqb "canvas" "DOM") with false.
    change (String.eqb "canvas" "canvas") with true. cbv iota.
    by rewrite <- !(assoc_L (++)). }
  split_and!.
  - exact Heq.
  - by intros ->.
  - apply js_or_truthy.
  - by intros -> -> ->.
  - by rewrite Heq.
Qed.

(** C2: the font string of the handler is the concatenation
    type + " " + weight + " " + (size || "10px") + " " + (family || "sans-serif");
    when the four fields hold strings, an empty size reads as "10px", an empty
    family as "sans-serif", and empty fields leave their spaces behind: the
    descriptor {type: "", weight: "bold", size: "", family: ""} gives
    " bold 10px sans-serif". *)
Theorem C2_font_string (e : entity) :
  font e = VStr (ToString (get (_textFont e) "type") +:+ " " +:+
                 ToString (get (_textFont e) "weight") +:+ " " +:+
                 ToString (js_or (get (_textFont e) "size") (VStr "10px")) +:+ " " +:+
                 ToString (js_or (get (_textFont e) "family") (VStr "sans-serif")))
  ∧ (∀ ty wt sz fm : string,
      _textFont e !! "type" = Some (VStr ty) ->
      _textFont e !! "weight" = Some (VStr wt) ->
      _textFont e !! "size" = Some (VStr sz) ->
      _textFont e !! "family" = Some (VStr fm) ->
      font e = VStr (ty +:+ " " +:+ wt +:+ " " +:+
                     (if decide (sz = "") then "10px" else sz) +:+ " " +:+
                     (if decide (fm = "") then "sans-serif" else fm)))
  ∧ font (set__textFont
            (<["type" := VStr ""]> (<["weight" := VStr "bold"]>
              (<["size" := VStr ""]> (<["family" := VStr ""]> ∅)))) e)
    = VStr " bold 10px sans-serif".
Proof.
  split; [apply font_flat|]. split; [|by rewrite font_flat].
  intros ty wt sz fm Hty Hwt Hsz Hfm.
  rewrite font_flat. unfold get. rewrite Hty, Hwt, Hsz, Hfm. cbn [from_option id].
  rewrite !js_or_str. unfold defaultSize, defaultFamily.
  by repeat case_decide.
Qed.


(** ** text *)

(** C7: [text(s)] for a string [s], then [text()], returns [s]. *)
Theorem C7_text_set_get (s : string) (w : world) :
  (text [] (text [VStr s] w).2).1 = RValue (VStr s).
Proof. reflexivity. Qed.

(** ** unselectable *)

(** C8: without the DOM component [unselectable()] returns [this] and leaves
    the entity, the globals and the log of notifications as they were. *)
Theorem C8_unselectable_without_DOM (w : world) :
  has "DOM" (this w) = false ->
  unselectable w = (RThis, w)
  ∧ changes (emitted (unselectable w).2) = changes (emitted w).
Proof. intros H. unfold unselectable. by rewrite H. Qed.

(** ** textFont *)

(** C10: [textFont(v)] with one argument that is neither a string nor an
    object changes nothing in the entity and still triggers "Change" once. *)
Theorem C10_textFont_other_argument (v : value) (w : world) :
  typeof v ≠ "string" -> typeof v ≠ "object" ->
  textFont [v] w = (RThis, emit (Trigger "Change") w)
  ∧ _textFont (this (textFont [v] w).2) = _textFont (this w)
  ∧ emitted (textFont [v] w).2 = emitted w ++ [Trigger "Change"].
Proof.
  intros Hs Ho. by destruct v.
Qed.


(** ** Notifications *)

(** C3: a mutating call ([text] with a set argument, [textColor], [textFont]
    with key and value or with one object, [unselectable] on an entity with
    the DOM component) triggers "Change" exactly once; the getters [text()]
    and [textFont(key)] trigger nothing and change nothing. *)
Theorem C3_change_notifications (o : op) (w : world) (c : context) :
  let w' := (step o (w, c)).1 in
  (mutating o w = true ->
   ∃ l : list event, emitted w' = emitted w ++ l ∧ changes l = 1)
  ∧ (getter o = true -> w' = w ∧ changes (emitted w') = changes (emitted w)).
Proof.
  cbv zeta. split.
  - destruct o as [args|args|args| |ty]; cbn [mutating step fst snd]; intros Hm.
    + destruct args as [|v args]; [done|].
      destruct v; try done; unfold text; cbn;
        rewrite <- ?(assoc_L (++)); by eexists.
    + by eexists.
    + destruct args as [|key [|v [|? ?]]]; cbn in Hm; try done.
      * destruct key; try done.
        exists [Trigger "Change"]. by rewrite textFont_object_emitted.
      * by eexists.
      * by destruct key.
    + unfold unselectable. rewrite Hm. cbn. rewrite <- (assoc_L (++)). by eexists.
    + done.
  - destruct o as [args|args|args| |ty]; cbn [getter step fst snd]; try done.
    + by destruct args.
    + destruct args as [|[] [|? ?]]; done.
Qed.

(** ** Text generators *)

(** C6: [text(f)] for a function [f] that returns the string [r] calls [f]
    once, at once, with the entity as receiver, and stores [r] in [_text]:
    nothing else of the entity changes, so [f] itself is kept nowhere.  Any
    number of later "Draw" notifications call nothing, and [text()] returns
    [r] before and after them. *)
Theorem C6_text_generator (f : fid) (r : string) (w : world) (c : context)
    (tys : list value) :
  call f (this w) = VStr r ->
  let w1 := (text [VFun f] w).2 in
  let w2 := (run (op_Draw <$> tys) (w1, c)).1 in
  (text [VFun f] w).1 = RThis
  ∧ emitted w1 = emitted w ++ [Call f (this w); Trigger "Change"]
  ∧ this w1 = set__text (VStr r) (this w)
  ∧ (text [] w1).1 = RValue (VStr r)
  ∧ calls (emitted w2) = calls (emitted w) ++ [Call f (this w)]
  ∧ (text [] w2).1 = RValue (VStr r).
Proof.
  intros Hr. cbv zeta.
  destruct (draws_frame tys ((text [VFun f] w).2, c)) as [Hem Htx].
  cbn [fst] in Hem, Htx.
  assert (emitted (text [VFun f] w).2
          = emitted w ++ [Call f (this w); Trigger "Change"]) as Hlog.
  { cbn. by rewrite <- (assoc_L (++)). }
  assert (this (text [VFun f] w).2 = set__text (VStr r) (this w)) as Hthis.
  { cbn. by rewrite Hr. }
  split_and!; try done.
  - by rewrite <- Hr.
  - rewrite Hem, Hlog. unfold calls. by rewrite List.filter_app.
  - rewrite text_getter. cbn [fst]. by rewrite Htx, Hthis.
Qed.

(** ** The stored descriptor *)

(** C9: [init] stores empty strings for size and family, and they stay empty
    through every sequence of calls and notifications in which no call of
    [textFont] names the field; the defaults "10px" and "sans-serif" appear
    in the composed font string only. *)
Theorem C9_defaults_not_stored (w0 : world) (os : list op) (c : context) :
  let e := this (run os (init w0, c)).1 in
  (Forall (leaves "size") os -> _textFont e !! "size" = Some (VStr ""))
  ∧ (Forall (leaves "family") os -> _textFont e !! "family" = Some (VStr ""))
  ∧ (Forall (leaves "size") os -> Forall (leaves "family") os ->
     font e = VStr (ToString (get (_textFont e) "type") +:+ " " +:+
                    ToString (get (_textFont e) "weight") +:+
                    " 10px sans-serif")).
Proof.
  cbv zeta.
  assert (Forall (leaves "size") os ->
          _textFont (this (run os (init w0, c)).1) !! "size" = Some (VStr ""))
    as Hsize by (intros H; by rewrite run_leaves).
  assert (Forall (leaves "family") os ->
          _textFont (this (run os (init w0, c)).1) !! "family" = Some (VStr ""))
    as Hfamily by (intros H; by rewrite run_leaves).
  split_and!; [done..|].
  intros Hs Hf. rewrite font_flat. unfold get.
  by rewrite (Hsize Hs), (Hfamily Hf).
Qed.

(** ** More about text *)

(** X1: a call of [text] whose first argument is undefined or null is a
    getter, whatever follows the first argument: it returns the stored text
    and leaves the entity, the globals and the log as they were.  Passing
    null does not clear the text. *)
Theorem X1_text_undefined_or_null_reads (arguments : list value) (w : world) :
  arg 0 arguments = VUndefined ∨ arg 0 arguments = VNull ->
  text arguments w = (RValue (_text (this w)), w).
Proof.
  unfold text. by intros [-> | ->].
Qed.

(** X2: [text(v, ...)] with a first argument that is neither undefined nor
    null is a setter for every such value: it changes [_text] and nothing
    else of the entity, stores a function's result (of whatever type, without
    calling it again) and any other value as it is, so the falsy "", 0 and
    false are stored too, and [text()] then returns what was stored. *)
Theorem X2_text_stores_any_set_value (v : value) (rest : list value) (w : world) :
  v ≠ VUndefined -> v ≠ VNull ->
  (text (v :: rest) w).1 = RThis
  ∧ this (text (v :: rest) w).2 = set__text (resolved v (this w)) (this w)
  ∧ propertyKey (text (v :: rest) w).2 = propertyKey w
  ∧ (text [] (text (v :: rest) w).2).1 = RValue (resolved v (this w)).
Proof.
  intros Hu Hn. by destruct v.
Qed.

(** ** More about textColor *)

(** X3: [textColor] keeps nothing of an earlier call: the entity after two
    calls is the entity after the second alone.  It stores its second
    argument as [_strength] and [Crafty.toRGB] of its two arguments as
    [_textColor]; a call without a strength therefore resets a strength set
    before to undefined. *)
Theorem X3_textColor_last_call_wins (a b : list value) (w : world) :
  this (textColor b (textColor a w).2).2 = this (textColor b w).2
  ∧ _strength (this (textColor b w).2) = arg 1 b
  ∧ _textColor (this (textColor b w).2) = Crafty_toRGB (arg 0 b) (arg 1 b)
  ∧ (length b <= 1 ->
     _strength (this (textColor b (textColor a w).2).2) = VUndefined
     ∧ _textColor (this (textColor b (textColor a w).2).2)
       = Crafty_toRGB (arg 0 b) VUndefined).
Proof.
  split_and!; try done.
  intros Hb. destruct b as [|c [|? ?]]; [done | done | cbn in Hb; lia].
Qed.

(** ** More about textFont *)

Lemma changes_app (l1 l2 : list event) :
  changes (l1 ++ l2) = changes l1 + changes l2.
Proof. unfold changes. by rewrite List.filter_app, length_app. Qed.

Lemma changes_replicate (n : nat) :
  changes (replicate n (Trigger "Change")) = n.
Proof.
  induction n as [|n IH]; [done|].
  change (S (changes (replicate n (Trigger "Change"))) = S n). by rewrite IH.
Qed.

Lemma textFont_single (key : value) (w : world) :
  typeof key ≠ "string" ->
  textFont [key] w
  = (RThis,
     {| this := set__textFont (merged key (for_in_keys key) (_textFont (this w))) (this w);
        propertyKey := default (propertyKey w) (VStr <$> last (for_in_keys key));
        emitted := emitted w ++ [Trigger "Change"] |}).
Proof.
  intros Hs. unfold textFont. cbn [length Nat.eqb arg nth].
  destruct key; try done; try (by destruct w as [[] ? ?]);
    cbn [typeof]; change (String.eqb "object" "string") with false;
    change (String.eqb "object" "object") with true; cbv iota;
    by rewrite textFont_loop.
Qed.

Lemma textFont_pair (key v : value) (rest : list value) (w : world) :
  textFont (key :: v :: rest) w
  = (RThis,
     emit (Trigger "Change")
       (set_this (set__textFont (assign (_textFont (this w)) (ToString key) v) (this w)) w)).
Proof. reflexivity. Qed.

Lemma textFont_read (k : string) (w : world) :
  textFont [VStr k] w = (RValue (get (_textFont (this w)) k), w).
Proof. reflexivity. Qed.

Lemma merged_as_assignments (key : value) (ps : list (string * value))
    (m : gmap string value) :
  (∀ (k : string) (v : value), (k, v) ∈ ps -> get_property key k = v) ->
  merged key ps.*1 m = fold_left (fun m kv => assign m kv.1 kv.2) ps m.
Proof.
  revert m. induction ps as [|[k v] ps IH]; intros m Hps; [done|].
  rewrite fmap_cons, merged_cons. cbn [fold_left fst snd].
  rewrite (Hps k v) by left. apply IH. intros k' v' Hin. apply Hps. by right.
Qed.

Lemma textFont_each_spec (props : list (string * value)) (w : world) :
  textFont_each props w
  = {| this := set__textFont
                 (fold_left (fun m kv => assign m kv.1 kv.2) props (_textFont (this w)))
                 (this w);
       propertyKey := propertyKey w;
       emitted := emitted w ++ replicate (length props) (Trigger "Change") |}.
Proof.
  unfold textFont_each. revert w. induction props as [|[k v] props IH]; intros w.
  - cbn. rewrite (right_id_L [] (++)). by destruct w as [[] ? ?].
  - cbn [fold_left]. rewrite IH, textFont_pair. cbn. by rewrite <- (assoc_L (++)).
Qed.

(** X4: [textFont(k, v)] followed by [textFont(k)] returns [v]; the getter
    for any other name returns what it returned before, and the getter itself
    changes nothing.  (The name "__proto__" is set apart: the model has own
    properties only.) *)
Theorem X4_textFont_set_then_get (k k' : string) (v : value) (w : world) :
  k ≠ "__proto__" ->
  (textFont [VStr k] (textFont [VStr k; v] w).2).1 = RValue v
  ∧ (k' ≠ k ->
     (textFont [VStr k'] (textFont [VStr k; v] w).2).1 = (textFont [VStr k'] w).1)
  ∧ (textFont [VStr k] (textFont [VStr k; v] w).2).2 = (textFont [VStr k; v] w).2.
Proof.
  intros Hk. rewrite textFont_pair, !textFont_read.
  cbn [fst snd emit set_this this set__textFont _textFont ToString]. unfold get.
  split_and!.
  - by rewrite assign_lookup_eq.
  - intros Hne. by rewrite assign_lookup_ne.
  - reflexivity.
Qed.

(** X5: [textFont] called with no argument, or with more than one, takes the
    key and value branch: it behaves as [textFont(k, v)] for its first two
    arguments (undefined when absent) and ignores further arguments; for a
    name other than "__proto__" the descriptor gets the property.
    [textFont()] therefore creates a property "undefined" holding
    undefined. *)
Theorem X5_textFont_other_arities (arguments : list value) (w : world) :
  length arguments ≠ 1 ->
  textFont arguments w = textFont [arg 0 arguments; arg 1 arguments] w
  ∧ (ToString (arg 0 arguments) ≠ "__proto__" ->
     _textFont (this (textFont arguments w).2)
     = <[ToString (arg 0 arguments) := arg 1 arguments]> (_textFont (this w)))
  ∧ _textFont (this (textFont [] w).2) = <["undefined" := VUndefined]> (_textFont (this w)).
Proof.
  intros Hlen. destruct arguments as [|key [|v rest]]; [|done|].
  - split_and!; [done| |done]. intros _. by apply assign_insert.
  - split_and!; [done| |done]. intros Hk. cbn [arg nth] in Hk |- *.
    rewrite textFont_pair. by apply assign_insert.
Qed.

(** X6: with key and value and names other than "__proto__", the last write
    to a name wins, and writes to different names give the same descriptor
    in either order. *)
Theorem X6_textFont_writes_compose (k1 k2 : string) (v1 v2 : value) (w : world) :
  k1 ≠ "__proto__" ->
  _textFont (this (textFont [VStr k1; v2] (textFont [VStr k1; v1] w).2).2)
  = _textFont (this (textFont [VStr k1; v2] w).2)
  ∧ (k2 ≠ "__proto__" -> k1 ≠ k2 ->
     _textFont (this (textFont [VStr k2; v2] (textFont [VStr k1; v1] w).2).2)
     = _textFont (this (textFont [VStr k1; v1] (textFont [VStr k2; v2] w).2).2)).
Proof.
  intros Hk1. rewrite !textFont_pair.
  cbn [fst snd emit set_this this set__textFont _textFont ToString]. split.
  - rewrite !assign_insert by done. apply insert_insert_eq.
  - intros Hk2 Hne. rewrite !assign_insert by done. by apply insert_insert_ne.
Qed.

(** X7: for an object whose property names are distinct, [textFont(map)]
    leaves the entity as the calls [textFont(k, v)] for its properties, one
    after the other, leave it; the single call triggers "Change" once, the
    separate calls once each. *)
Theorem X7_textFont_object_as_single_writes (props : list (string * value))
    (w : world) :
  NoDup props.*1 ->
  this (textFont [VObj props] w).2 = this (textFont_each props w)
  ∧ changes (emitted (textFont [VObj props] w).2) = changes (emitted w) + 1
  ∧ changes (emitted (textFont_each props w)) = changes (emitted w) + length props.
Proof.
  intros Hnd. rewrite textFont_single by done. rewrite textFont_each_spec.
  cbn [snd this emitted for_in_keys]. split_and!.
  - f_equal. apply merged_as_assignments. intros k v Hkv. cbn [get_property].
    by rewrite (elem_of_list_to_map_1 props k v).
  - by rewrite changes_app.
  - by rewrite changes_app, changes_replicate.
Qed.

(** X8: [textFont(key)] with one argument that is not a string and has no
    enumerable property (null, an empty object, a number, a boolean,
    undefined, a function) assigns nothing, neither in the descriptor nor to
    the global loop variable, and still triggers "Change". *)
Theorem X8_textFont_nothing_to_enumerate (key : value) (w : world) :
  typeof key ≠ "string" -> for_in_keys key = [] ->
  textFont [key] w = (RThis, emit (Trigger "Change") w).
Proof.
  intros Hs Hk. rewrite textFont_single by done. rewrite Hk.
  by destruct w as [[] ? ?].
Qed.

(** ** More about the font string *)

Lemma font_ext (e e' : entity) :
  (∀ k : string, k ∈ ["type"; "weight"; "size"; "family"] ->
                 _textFont e !! k = _textFont e' !! k) ->
  font e = font e'.
Proof.
  intros H. rewrite !font_flat. unfold get.
  rewrite (H "type"), (H "weight"), (H "size"), (H "family"); [done|..];
    repeat first [by left | right].
Qed.

(** X9: the font string reads the four fields type, weight, size and family
    only: [textFont(k, v)] for any other name [k], "__proto__" apart,
    triggers "Change", and the font string the handler composes is the same
    as before. *)
Theorem X9_font_ignores_other_properties (k : string) (v : value) (w : world) :
  k ∉ ["type"; "weight"; "size"; "family"; "__proto__"] ->
  font (this (textFont [VStr k; v] w).2) = font (this w)
  ∧ emitted (textFont [VStr k; v] w).2 = emitted w ++ [Trigger "Change"].
Proof.
  intros Hk. split.
  - apply font_ext. intros k' Hk'. rewrite textFont_pair.
    cbn [snd emit set_this this set__textFont _textFont ToString].
    apply assign_lookup_ne. intros ->. apply Hk.
    repeat (apply elem_of_cons in Hk' as [-> | Hk'];
            [repeat first [by left | right]|]).
    by apply elem_of_nil in Hk'.
  - reflexivity.
Qed.

Lemma js_or_falsy (a b : value) : ToBoolean a = false -> js_or a b = b.
Proof. unfold js_or. by intros ->. Qed.

(** X10: each default replaces every falsy value of its field, not only the
    empty string.  After [textFont("size", v)] with a falsy [v] the font
    string carries "10px" in the place of the size, whatever the family is,
    and after [textFont("family", v)] it carries "sans-serif" in the place of
    the family, whatever the size is; the other places read as before.  The
    falsy values are undefined, null, false, 0, -0, NaN and "". *)
Theorem X10_font_defaults_for_falsy_fields (v : value) (w : world) :
  v ∈ [VUndefined; VNull; VBool false; VNum 0%float; VNum PrimFloat.neg_zero;
       VNum PrimFloat.nan; VStr ""] ->
  let old := _textFont (this w) in
  font (this (textFont [VStr "size"; v] w).2)
  = VStr (ToString (get old "type") +:+ " " +:+
          ToString (get old "weight") +:+ " " +:+
          "10px" +:+ " " +:+
          ToString (js_or (get old "family") (VStr "sans-serif")))
  ∧ font (this (textFont [VStr "family"; v] w).2)
    = VStr (ToString (get old "type") +:+ " " +:+
            ToString (get old "weight") +:+ " " +:+
            ToString (js_or (get old "size") (VStr "10px")) +:+ " " +:+
            "sans-serif").
Proof.
  intros Hv. cbv zeta.
  assert (ToBoolean v = false) as Hfalsy.
  { repeat (apply elem_of_cons in Hv as [-> | Hv]; [reflexivity|]).
    by apply elem_of_nil in Hv. }
  rewrite !font_flat, !textFont_pair.
  cbn [snd emit set_this this set__textFont _textFont ToString]. unfold get.
  rewrite !assign_lookup_eq by done. rewrite !assign_lookup_ne by done.
  cbn [from_option id]. by rewrite !(js_or_falsy v) by done.
Qed.

(** ** More about the "Draw" handler *)

Lemma Draw_canvas (c : context) (w : world) :
  Draw {| type := VStr "canvas"; ctx := c |} w
  = (set_this
       (set__w (width (measure
          (c ++ [save;
                 set_fillStyle (js_or (_textColor (this w)) (VStr "rgb(0,0,0)"));
                 set_font (font (this w));
                 translate (x (this w)) (y (this w) + h (this w))%float;
                 fillText (_text (this w)) 0%float 0%float])
          (_text (this w)))) (this w)) w,
     c ++ [save;
           set_fillStyle (js_or (_textColor (this w)) (VStr "rgb(0,0,0)"));
           set_font (font (this w));
           translate (x (this w)) (y (this w) + h (this w))%float;
           fillText (_text (this w)) 0%float 0%float;
           measureText (_text (this w)); restore]).
Proof.
  unfold Draw. cbn [type ctx strict_eq_str]. cbv zeta.
  change (String.eqb "canvas" "DOM") with false.
  change (String.eqb "canvas" "canvas") with true. cbv iota.
  by rewrite <- !(assoc_L (++)).
Qed.

Lemma strict_eq_str_true (v : value) (s : string) :
  strict_eq_str v s = true <-> v = VStr s.
Proof.
  destruct v; cbn; try (split; intros; done).
  destruct (String.eqb_spec s0 s); split; intros; simplify_eq; done.
Qed.

Lemma Draw_cases (ev : draw_event) (w : world) :
  (type ev = VStr "DOM"
   ∧ Draw ev w = Draw {| type := VStr "DOM"; ctx := ctx ev |} w)
  ∨ (type ev = VStr "canvas"
     ∧ Draw ev w = Draw {| type := VStr "canvas"; ctx := ctx ev |} w)
  ∨ (strict_eq_str (type ev) "DOM" = false
     ∧ strict_eq_str (type ev) "canvas" = false
     ∧ Draw ev w = (w, ctx ev)).
Proof.
  destruct ev as [ty c]. cbn [type ctx].
  destruct (strict_eq_str ty "DOM") eqn:Hd.
  { left. apply strict_eq_str_true in Hd. by subst. }
  destruct (strict_eq_str ty "canvas") eqn:Hc.
  { right; left. apply strict_eq_str_true in Hc. by subst. }
  right; right. split_and!; try done.
  unfold Draw. cbn [type ctx]. by rewrite Hd, Hc.
Qed.

(** X11: a "Draw" notification whose type is neither the string "DOM" nor
    the string "canvas" (another spelling, another type of value, no type at
    all) is ignored: the entity, the log and the context stay as they are. *)
Theorem X11_Draw_ignores_other_types (ev : draw_event) (w : world) :
  type ev ≠ VStr "DOM" -> type ev ≠ VStr "canvas" ->
  Draw ev w = (w, ctx ev).
Proof.
  intros Hd Hc.
  destruct (Draw_cases ev w) as [[? _] | [[? _] | (_ & _ & ->)]]; done.
Qed.

Lemma style_overwritten (m : gmap string value) (f f' col col' : value) :
  <["font" := f']> (<["color" := col']> (<["font" := f]> (<["color" := col]> m)))
  = <["font" := f']> (<["color" := col']> m).
Proof.
  apply map_eq. intros k. rewrite !lookup_insert. by repeat case_decide.
Qed.

(** X12: a DOM "Draw" notification assigns [style.color], [style.font] and
    [innerHTML] of the element and nothing else: no other entry of the style
    object is assigned (what a browser derives from the font shorthand is
    not modelled), the rest of the entity, the log and the context are
    untouched, and a second notification changes nothing more. *)
Theorem X12_DOM_draw_frame_and_idempotence (c : context) (w : world) :
  let ev := {| type := VStr "DOM"; ctx := c |} in
  (Draw ev w).2 = c
  ∧ (∀ k : string, k ≠ "color" -> k ≠ "font" ->
       style (_element (this (Draw ev w).1)) !! k = style (_element (this w)) !! k)
  ∧ (Draw ev w).1
    = set_this (set__element (_element (this (Draw ev w).1)) (this w)) w
  ∧ Draw ev (Draw ev w).1 = Draw ev w.
Proof.
  cbv zeta. split_and!.
  - reflexivity.
  - intros k Hc Hf. cbn. by rewrite !lookup_insert_ne.
  - reflexivity.
  - unfold Draw. cbn. by rewrite style_overwritten.
Qed.

Lemma depth_app (d : nat) (c1 c2 : context) :
  depth d (c1 ++ c2) = depth d c1 ≫= fun d1 => depth d1 c2.
Proof.
  revert d. induction c1 as [|o c1 IH]; intros d; [done|].
  destruct o; cbn [app depth]; try apply IH. by destruct d.
Qed.

Lemma step_context (o : op) (s : world * context) :
  ∃ delta : context,
    (step o s).2 = s.2 ++ delta
    ∧ (∀ k : nat, depth k delta = Some k)
    ∧ length delta = if is_canvas_draw o then 7 else 0.
Proof.
  destruct o as [args|args|args| |ty]; cbn [step snd is_canvas_draw];
    try (exists []; by rewrite (right_id_L [] (++))).
  destruct (Draw_cases {| type := ty; ctx := s.2 |} s.1)
    as [[Hty ->] | [[Hty ->] | (Hd & Hc & ->)]]; cbn [type ctx] in *.
  - subst ty. exists []. by rewrite (right_id_L [] (++)).
  - subst ty. rewrite Draw_canvas. cbn [snd]. by eexists.
  - rewrite Hc. exists []. by rewrite (right_id_L [] (++)).
Qed.

(** X13: through every sequence of calls and notifications the context only
    grows, by seven calls for each canvas "Draw" notification and by none
    otherwise, and its stack of saved states ends at the depth it started
    with: every [save] of the handler is undone by its [restore]. *)
Theorem X13_context_grows_balanced (os : list op) (w : world) (c : context)
    (d d' : nat) :
  depth d c = Some d' ->
  ∃ delta : context,
    (run os (w, c)).2 = c ++ delta
    ∧ depth d (run os (w, c)).2 = Some d'
    ∧ length delta = 7 * length (List.filter is_canvas_draw os).
Proof.
  revert w c. induction os as [|o os IH]; intros w c Hd.
  - exists []. cbn. by rewrite (right_id_L [] (++)).
  - rewrite run_cons.
    destruct (step_context o (w, c)) as (d1 & Hc1 & Hd1 & Hl1). cbn [snd] in Hc1.
    destruct (step o (w, c)) as [w1 c1] eqn:Hstep. cbn [snd] in Hc1. subst c1.
    destruct (IH w1 (c ++ d1)) as (d2 & Hc2 & Hd2 & Hl2).
    { rewrite depth_app, Hd. cbn. apply Hd1. }
    exists (d1 ++ d2). split_and!.
    + by rewrite Hc2, (assoc_L (++)).
    + done.
    + rewrite length_app, Hl1, Hl2. cbn [List.filter].
      destruct (is_canvas_draw o); cbn [length]; lia.
Qed.

(** ** Sequences of calls and notifications *)

Lemma step_emitted (o : op) (s : world * context) :
  ∃ l : list event,
    emitted (step o s).1 = emitted s.1 ++ l
    ∧ changes l = if notifies (this s.1) o then 1 else 0.
Proof.
  destruct o as [args|args|args| |ty]; cbn [step fst snd notifies].
  - unfold text. destruct (arg 0 args); cbn;
      first [ by exists []; rewrite (right_id_L [] (++))
            | rewrite <- ?(assoc_L (++)); by eexists ].
  - by eexists.
  - destruct args as [|key [|v rest]].
    + by eexists.
    + destruct key;
        first [ by exists []; rewrite (right_id_L [] (++))
              | rewrite textFont_single by done; by eexists ].
    + rewrite textFont_pair. by eexists.
  - unfold unselectable. destruct (has "DOM" (this s.1)); cbn.
    + rewrite <- (assoc_L (++)). by eexists.
    + exists []. by rewrite (right_id_L [] (++)).
  - destruct (Draw_frame {| type := ty; ctx := s.2 |} s.1) as (-> & _).
    exists []. by rewrite (right_id_L [] (++)).
Qed.

(** What one call or notification does to the entity and the global, field
    by field. *)
Lemma step_frame (o : op) (s : world * context) :
  let e := this s.1 in
  let e' := this (step o s).1 in
  x e' = x e ∧ y e' = y e ∧ h e' = h e ∧ __c e' = __c e
  ∧ (is_text_call o = false -> _text e' = _text e)
  ∧ (is_textColor_call o = false ->
     _textColor e' = _textColor e ∧ _strength e' = _strength e)
  ∧ (is_textFont_call o = false ->
     _textFont e' = _textFont e ∧ propertyKey (step o s).1 = propertyKey s.1)
  ∧ (is_canvas_draw o = false -> _w e' = _w e)
  ∧ (is_DOM_draw o = false -> is_unselectable_call o = false ->
     _element e' = _element e).
Proof.
  cbv zeta. destruct o as [args|args|args| |ty]; cbn [step fst snd].
  - unfold text. by destruct (arg 0 args).
  - done.
  - destruct args as [|key [|v rest]]; [done| |done].
    destruct key; first [done | by rewrite textFont_single].
  - unfold unselectable. by destruct (has "DOM" (this s.1)).
  - destruct (Draw_cases {| type := ty; ctx := s.2 |} s.1)
      as [[Hty ->] | [[Hty ->] | (Hd & Hc & ->)]]; cbn [type ctx] in *.
    + by subst ty.
    + subst ty. by rewrite Draw_canvas.
    + done.
Qed.

Lemma run_preserves {A : Type} (proj : world -> A) (P : op -> Prop) :
  (∀ (o : op) (s : world * context), P o -> proj (step o s).1 = proj s.1) ->
  ∀ (os : list op) (s : world * context),
    Forall P os -> proj (run os s).1 = proj s.1.
Proof.
  intros Hstep os. induction os as [|o os IH]; intros s Hos; [done|].
  apply Forall_cons in Hos as [Ho Hos].
  rewrite run_cons, IH by done. by apply Hstep.
Qed.

Lemma Forall_always {A : Type} (l : list A) : Forall (fun _ => True) l.
Proof. by apply Forall_forall. Qed.

Lemma notifies_components (e e' : entity) (o : op) :
  __c e = __c e' -> notifies e o = notifies e' o.
Proof. intros H. destruct o; try done. cbn. unfold has. by rewrite H. Qed.

(** X14: the log only grows, and over a whole sequence of calls and
    notifications the number of "Change" notifications added is the number
    of calls that reach a trigger: the getters, the "Draw" notifications and
    [unselectable] on an entity without the DOM component add none, every
    other call adds one, also when it changes nothing. *)
Theorem X14_changes_of_a_run (os : list op) (w : world) (c : context) :
  ∃ l : list event,
    emitted (run os (w, c)).1 = emitted w ++ l
    ∧ changes l = length (List.filter (notifies (this w)) os).
Proof.
  revert w c. induction os as [|o os IH]; intros w c.
  - exists []. cbn. by rewrite (right_id_L [] (++)).
  - rewrite run_cons.
    destruct (step_emitted o (w, c)) as (l1 & Hl1 & Hc1).
    destruct (step_frame o (w, c)) as (_ & _ & _ & Hcomp & _).
    cbn [fst] in Hl1, Hc1, Hcomp.
    destruct (step o (w, c)) as [w1 c1]. cbn [fst] in Hl1, Hcomp.
    destruct (IH w1 c1) as (l2 & Hl2 & Hc2).
    exists (l1 ++ l2). split.
    + by rewrite Hl2, Hl1, (assoc_L (++)).
    + rewrite changes_app, Hc1, Hc2. cbn [List.filter].
      rewrite (List.filter_ext _ _ (fun o' => notifies_components _ _ o' Hcomp)).
      by destruct (notifies (this w) o).
Qed.

(** X15: each field has its own writers.  No call and no notification moves
    or resizes the entity or changes its components; [_text] changes in calls
    of [text] only, the colour and the strength in calls of [textColor] only,
    the descriptor and the global loop variable in calls of [textFont] only,
    [_w] in canvas "Draw" notifications only, and the element in DOM "Draw"
    notifications and calls of [unselectable] only. *)
Theorem X15_fields_and_their_writers (os : list op) (w : world) (c : context) :
  let e := this w in
  let w' := (run os (w, c)).1 in
  let e' := this w' in
  x e' = x e ∧ y e' = y e ∧ h e' = h e ∧ __c e' = __c e
  ∧ (Forall (fun o => is_text_call o = false) os -> _text e' = _text e)
  ∧ (Forall (fun o => is_textColor_call o = false) os ->
     _textColor e' = _textColor e ∧ _strength e' = _strength e)
  ∧ (Forall (fun o => is_textFont_call o = false) os ->
     _textFont e' = _textFont e ∧ propertyKey w' = propertyKey w)
  ∧ (Forall (fun o => is_canvas_draw o = false) os -> _w e' = _w e)
  ∧ (Forall (fun o => is_DOM_draw o = false ∧ is_unselectable_call o = false) os ->
     _element e' = _element e).
Proof.
  cbv zeta. split_and!.
  - apply (run_preserves (fun w => x (this w)) (fun _ => True));
      [intros o s _; apply step_frame | apply Forall_always].
  - apply (run_preserves (fun w => y (this w)) (fun _ => True));
      [intros o s _; apply step_frame | apply Forall_always].
  - apply (run_preserves (fun w => h (this w)) (fun _ => True));
      [intros o s _; apply step_frame | apply Forall_always].
  - apply (run_preserves (fun w => __c (this w)) (fun _ => True));
      [intros o s _; apply step_frame | apply Forall_always].
  - apply (run_preserves (fun w => _text (this w))).
    intros o s Ho. by apply step_frame.
  - intros Hos. split.
    + revert Hos. apply (run_preserves (fun w => _textColor (this w))).
      intros o s Ho. by apply step_frame.
    + revert Hos. apply (run_preserves (fun w => _strength (this w))).
      intros o s Ho. by apply step_frame.
  - intros Hos. split.
    + revert Hos. apply (run_preserves (fun w => _textFont (this w))).
      intros o s Ho. by apply step_frame.
    + revert Hos. apply (run_preserves propertyKey).
      intros o s Ho. by apply step_frame.
  - apply (run_preserves (fun w => _w (this w))).
    intros o s Ho. by apply step_frame.
  - apply (run_preserves (fun w => _element (this w))).
    intros o s [Hd Hu]. by apply step_frame.
Qed.

(** X16: what is drawn is the text set last.  After [text(v)] with a set
    argument and any calls and notifications that are not calls of [text], a
    DOM "Draw" notification puts the stored value into [innerHTML], and a
    canvas one adds to the context exactly the seven calls of the handler,
    with the stored value as the argument of [fillText] at (0, 0) and of
    [measureText]. *)
Theorem X16_last_text_is_drawn (v : value) (os : list op) (w : world)
    (c : context) :
  v ≠ VUndefined -> v ≠ VNull ->
  Forall (fun o => is_text_call o = false) os ->
  let s := run os ((text [v] w).2, c) in
  let e := this s.1 in
  innerHTML (_element (this (Draw {| type := VStr "DOM"; ctx := s.2 |} s.1).1))
  = resolved v (this w)
  ∧ (Draw {| type := VStr "canvas"; ctx := s.2 |} s.1).2
    = s.2 ++ [save;
              set_fillStyle (js_or (_textColor e) (VStr "rgb(0,0,0)"));
              set_font (font e);
              translate (x e) (y e + h e)%float;
              fillText (resolved v (this w)) 0%float 0%float;
              measureText (resolved v (this w));
              restore].
Proof.
  intros Hu Hn Hos. cbv zeta.
  assert (_text (this (run os ((text [v] w).2, c)).1) = resolved v (this w)) as Ht.
  { rewrite (run_preserves (fun w => _text (this w))
               (fun o => is_text_call o = false)); [|by intros; apply step_frame|done].
    by destruct v. }
  split.
  - cbn. exact Ht.
  - rewrite Draw_canvas. cbn [snd]. by rewrite Ht.
Qed.

(** ** More about init *)

(** X17: [init] gives the entity a fresh descriptor, whatever it held: the
    getter then returns the empty string for each of the four fields (the
    defaults are not stored), the font string is "  10px sans-serif" with
    two leading spaces, the rest of the entity is untouched, and the calls
    made are [requires("2D")] and [bind("Draw", ...)], with no "Change". *)
Theorem X17_init_fresh_descriptor (w : world) :
  (∀ k : string, k ∈ ["type"; "weight"; "size"; "family"] ->
     (textFont [VStr k] (init w)).1 = RValue (VStr ""))
  ∧ font (this (init w)) = VStr "  10px sans-serif"
  ∧ this (init w) = set__textFont (_textFont (this (init w))) (this w)
  ∧ propertyKey (init w) = propertyKey w
  ∧ emitted (init w) = emitted w ++ [Requires "2D"; Bind "Draw"]
  ∧ changes (emitted (init w)) = changes (emitted w).
Proof.
  assert (emitted (init w) = emitted w ++ [Requires "2D"; Bind "Draw"]) as Hem.
  { cbn. by rewrite <- (assoc_L (++)). }
  split_and!.
  - intros k Hk. cbn.
    repeat (apply elem_of_cons in Hk as [-> | Hk]; [done|]).
    by apply elem_of_nil in Hk.
  - by rewrite font_flat.
  - reflexivity.
  - reflexivity.
  - exact Hem.
  - rewrite Hem, changes_app. apply Nat.add_0_r.
Qed.

End Component.

(** ** The theorems at the sample entities *)

Lemma C1_canvas_draw_at_10_20_5 :
  Draw object_string twelve_wide {| type := VStr "canvas"; ctx := [] |} hi_world
  = (set_this (set__w 12%float hi) hi_world,
     [save; set_fillStyle (VStr "rgb(0,0,0)"); set_font (VStr "  10px sans-serif");
      translate 10%float 25%float; fillText (VStr "hi") 0%float 0%float;
      measureText (VStr "hi"); restore])
  ∧ js_or (_textColor hi) (VStr "rgb(0,0,0)") = VStr "rgb(0,0,0)"
  ∧ js_or (_textColor (this hi_dom)) (VStr "rgb(0,0,0)") = VStr "rgb(255,0,0)"
  ∧ [save; set_fillStyle (VStr "rgb(0,0,0)"); set_font (font object_string hi);
     translate (x hi) (y hi + h hi)%float; fillText (VStr "hi") 0%float 0%float]
    = [save; set_fillStyle (VStr "rgb(0,0,0)"); set_font (VStr "  10px sans-serif");
       translate 10%float 25%float; fillText (VStr "hi") 0%float 0%float]
  ∧ _w hi = 0%float
  ∧ _w (this (Draw object_string twelve_wide
                {| type := VStr "canvas"; ctx := [] |} hi_world).1) = 12%float.
Proof.
  pose proof (C1_canvas_draw_sequence object_string twelve_wide [] hi_world) as Hcanvas.
  pose proof (C1_canvas_draw_sequence object_string twelve_wide [] hi_dom) as Hdom.
  cbv zeta in Hcanvas, Hdom.
  destruct Hcanvas as (Hseq & Hunset & _ & Hat & Hwidth).
  destruct Hdom as (_ & _ & Hset & _).
  split_and!.
  - exact Hseq.
  - exact (Hunset eq_refl).
  - exact (Hset eq_refl).
  - exact (Hat eq_refl eq_refl eq_refl).
  - reflexivity.
  - exact Hwidth.
Defined.

Lemma C2_font_of_bold :
  font object_string bold = VStr " bold 10px sans-serif".
Proof.
  exact (proj1 (proj2 (C2_font_string object_string bold)) "" "bold" "" ""
           eq_refl eq_refl eq_refl eq_refl).
Defined.

Lemma C3_one_Change_per_setter :
  (∃ l : list event,
     emitted (text describe_colour [VStr "hello"] hi_world).2
     = emitted hi_world ++ l ∧ changes l = 1)
  ∧ (∃ l : list event,
       emitted (unselectable css_user_select hi_dom).2
       = emitted hi_dom ++ l ∧ changes l = 1)
  ∧ (textFont object_string [VStr "size"] hi_world).2 = hi_world
  ∧ (text describe_colour [] hi_world).2 = hi_world.
Proof.
  split_and!.
  - exact (proj1 (C3_change_notifications toRGB_red describe_colour object_string
                    twelve_wide css_user_select (op_text [VStr "hello"]) hi_world [])
             eq_refl).
  - exact (proj1 (C3_change_notifications toRGB_red describe_colour object_string
                    twelve_wide css_user_select op_unselectable hi_dom [])
             eq_refl).
  - exact (proj1 (proj2 (C3_change_notifications toRGB_red describe_colour object_string
                    twelve_wide css_user_select (op_textFont [VStr "size"]) hi_world [])
             eq_refl)).
  - exact (proj1 (proj2 (C3_change_notifications toRGB_red describe_colour object_string
                    twelve_wide css_user_select (op_text []) hi_world [])
             eq_refl)).
Defined.



Lemma C6_generator_called_once :
  let w1 := (text describe_colour [VFun 0] hi_world).2 in
  let w2 := (run toRGB_red describe_colour object_string twelve_wide css_user_select
               (op_Draw <$> [VStr "canvas"; VStr "DOM"; VStr "canvas"]) (w1, [])).1 in
  emitted w1 = [Call 0 hi; Trigger "Change"]
  ∧ (text describe_colour [] w1).1 = RValue (VStr "no colour")
  ∧ calls (emitted w2) = [Call 0 hi]
  ∧ (text describe_colour [] w2).1 = RValue (VStr "no colour").
Proof.
  cbv zeta.
  pose proof (C6_text_generator toRGB_red describe_colour object_string twelve_wide
                css_user_select 0 "no colour" hi_world []
                [VStr "canvas"; VStr "DOM"; VStr "canvas"] eq_refl) as H.
  cbv zeta in H. destruct H as (_ & H1 & _ & H2 & H3 & H4).
  split_and!; [exact H1 | exact H2 | exact H3 | exact H4].
Defined.

Lemma C8_unselectable_on_canvas_entity :
  unselectable css_user_select hi_world = (RThis, hi_world).
Proof.
  exact (proj1 (C8_unselectable_without_DOM css_user_select hi_world eq_refl)).
Defined.

Lemma C10_textFont_of_a_number :
  textFont object_string [VNum 5%float] hi_world
  = (RThis, emit (Trigger "Change") hi_world).
Proof.
  refine (proj1 (C10_textFont_other_argument object_string (VNum 5%float) hi_world _ _));
    discriminate.
Defined.

Ltac solve_leaves :=
  repeat (apply Forall_cons; split); try apply Forall_nil;
  cbn [leaves textFont_keys for_in_keys fmap list_fmap fst arg nth ToString];
  first [ exact I
        | apply not_elem_of_nil
        | let H := fresh in
          intros H; apply list_elem_of_singleton in H; discriminate H ].

Lemma C9_session_keeps_size_and_family_empty :
  let e := this (run toRGB_red describe_colour object_string twelve_wide
                   css_user_select session
                   (init (set_this (set__textFont ∅ hi) hi_world), [])).1 in
  _textFont e !! "size" = Some (VStr "")
  ∧ _textFont e !! "family" = Some (VStr "")
  ∧ font object_string e = VStr "italic bold 10px sans-serif".
Proof.
  cbv zeta.
  assert (Forall (leaves object_string "size") session) as Hsize
    by (unfold session; solve_leaves).
  assert (Forall (leaves object_string "family") session) as Hfamily
    by (unfold session; solve_leaves).
  pose proof (C9_defaults_not_stored toRGB_red describe_colour object_string
                twelve_wide css_user_select
                (set_this (set__textFont ∅ hi) hi_world) session []) as H.
  cbv zeta in H. destruct H as (H1 & H2 & H3).
  split_and!; [exact (H1 Hsize) | exact (H2 Hfamily) |].
  etrans; [exact (H3 Hsize Hfamily)|]. vm_compute. reflexivity.
Defined.

(** ** The further theorems at the sample entities *)

Lemma X1_text_null_reads_hi :
  text describe_colour [VNull; VStr "ignored"] hi_world = (RValue (VStr "hi"), hi_world).
Proof.
  exact (X1_text_undefined_or_null_reads describe_colour [VNull; VStr "ignored"]
           hi_world (or_intror eq_refl)).
Defined.

Lemma X2_text_stores_the_empty_string :
  (text describe_colour [] (text describe_colour [VStr ""] hi_world).2).1
  = RValue (VStr "")
  ∧ (text describe_colour [] (text describe_colour [VNum 0%float] hi_world).2).1
    = RValue (VNum 0%float).
Proof.
  split.
  - refine (proj2 (proj2 (proj2 (X2_text_stores_any_set_value describe_colour
                                   (VStr "") [] hi_world _ _)))); discriminate.
  - refine (proj2 (proj2 (proj2 (X2_text_stores_any_set_value describe_colour
                                   (VNum 0%float) [] hi_world _ _)))); discriminate.
Defined.

Lemma X3_textColor_without_strength_resets_it :
  _strength (this (textColor toRGB_red [VStr "#FF0000"]
                     (textColor toRGB_red [VStr "#0000FF"; VNum 0.5%float] hi_world).2).2)
  = VUndefined.
Proof.
  exact (proj1 (proj2 (proj2 (proj2
           (X3_textColor_last_call_wins toRGB_red
              [VStr "#0000FF"; VNum 0.5%float] [VStr "#FF0000"] hi_world)))
           (le_n 1))).
Defined.

Lemma X4_size_set_then_get :
  (textFont object_string [VStr "size"]
     (textFont object_string [VStr "size"; VStr "20px"] hi_world).2).1
  = RValue (VStr "20px")
  ∧ (textFont object_string [VStr "family"]
       (textFont object_string [VStr "size"; VStr "20px"] hi_world).2).1
    = RValue (VStr "").
Proof.
  assert ("size" ≠ "__proto__") as Hk by discriminate.
  assert ("family" ≠ "size") as Hk' by discriminate.
  pose proof (X4_textFont_set_then_get object_string "size" "family" (VStr "20px")
                hi_world Hk) as (Hget & Hother & _).
  split; [exact Hget | exact (Hother Hk')].
Defined.

Lemma X5_textFont_third_argument_ignored :
  textFont object_string [VStr "size"; VStr "20px"; VStr "bold"] hi_world
  = textFont object_string [VStr "size"; VStr "20px"] hi_world.
Proof.
  refine (proj1 (X5_textFont_other_arities object_string
                   [VStr "size"; VStr "20px"; VStr "bold"] hi_world _)).
  discriminate.
Defined.

Lemma X6_size_and_family_in_either_order :
  _textFont (this (textFont object_string [VStr "size"; VStr "Arial"]
                     (textFont object_string [VStr "size"; VStr "20px"] hi_world).2).2)
  = _textFont (this (textFont object_string [VStr "size"; VStr "Arial"] hi_world).2)
  ∧ _textFont (this (textFont object_string [VStr "family"; VStr "Arial"]
                       (textFont object_string [VStr "size"; VStr "20px"] hi_world).2).2)
    = _textFont (this (textFont object_string [VStr "size"; VStr "20px"]
                         (textFont object_string [VStr "family"; VStr "Arial"] hi_world).2).2).
Proof.
  assert ("size" ≠ "__proto__") as Hk1 by discriminate.
  assert ("family" ≠ "__proto__") as Hk2 by discriminate.
  assert ("size" ≠ "family") as Hne by discriminate.
  pose proof (X6_textFont_writes_compose object_string "size" "family"
                (VStr "20px") (VStr "Arial") hi_world Hk1) as [Hlast Hswap].
  split; [exact Hlast | exact (Hswap Hk2 Hne)].
Defined.

Lemma X7_italic_Arial_at_once_or_one_by_one :
  this (textFont object_string
          [VObj [("type", VStr "italic"); ("family", VStr "Arial")]] hi_world).2
  = this (textFont_each object_string
            [("type", VStr "italic"); ("family", VStr "Arial")] hi_world).
Proof.
  refine (proj1 (X7_textFont_object_as_single_writes object_string
                   [("type", VStr "italic"); ("family", VStr "Arial")] hi_world _)).
  apply NoDup_cons. split; [|apply NoDup_singleton].
  intros H. apply list_elem_of_singleton in H. discriminate H.
Defined.

Lemma X8_textFont_of_null :
  textFont object_string [VNull] hi_world = (RThis, emit (Trigger "Change") hi_world).
Proof.
  refine (X8_textFont_nothing_to_enumerate object_string VNull hi_world _ eq_refl).
  discriminate.
Defined.

Lemma X9_variant_is_not_part_of_the_font :
  font object_string
    (this (textFont object_string [VStr "variant"; VStr "small-caps"] hi_world).2)
  = font object_string hi.
Proof.
  refine (proj1 (X9_font_ignores_other_properties object_string "variant"
                   (VStr "small-caps") hi_world _)).
  intros H. repeat (apply elem_of_cons in H as [H | H]; [discriminate H|]).
  by apply elem_of_nil in H.
Defined.

Lemma X10_size_zero_reads_as_default :
  font object_string
    (this (textFont object_string [VStr "size"; VNum 0%float]
             (textFont object_string [VStr "family"; VStr "Arial"]
                (set_this bold hi_world)).2).2)
  = VStr " bold 10px Arial"
  ∧ font object_string
      (this (textFont object_string [VStr "family"; VNum PrimFloat.nan]
               (textFont object_string [VStr "size"; VStr "20px"]
                  (set_this bold hi_world)).2).2)
    = VStr " bold 20px sans-serif".
Proof.
  split.
  - refine (proj1 (X10_font_defaults_for_falsy_fields object_string (VNum 0%float)
                     (textFont object_string [VStr "family"; VStr "Arial"]
                        (set_this bold hi_world)).2 _)).
    repeat first [by left | right].
  - refine (proj2 (X10_font_defaults_for_falsy_fields object_string
                     (VNum PrimFloat.nan)
                     (textFont object_string [VStr "size"; VStr "20px"]
                        (set_this bold hi_world)).2 _)).
    repeat first [by left | right].
Defined.

Lemma X11_Draw_of_type_Canvas_is_ignored :
  Draw object_string twelve_wide {| type := VStr "Canvas"; ctx := [save] |} hi_world
  = (hi_world, [save]).
Proof.
  refine (X11_Draw_ignores_other_types object_string twelve_wide
            {| type := VStr "Canvas"; ctx := [save] |} hi_world _ _); discriminate.
Defined.

Lemma X12_DOM_draw_keeps_textAlign :
  style (_element (this (Draw object_string twelve_wide
                           {| type := VStr "DOM"; ctx := [] |} hi_centered).1))
    !! "textAlign"
  = Some (VStr "center").
Proof.
  refine (proj1 (proj2 (X12_DOM_draw_frame_and_idempotence object_string twelve_wide
                          [] hi_centered)) "textAlign" _ _); discriminate.
Defined.

Lemma X13_session_leaves_the_stack_at_depth_one :
  ∃ delta : context,
    (run toRGB_red describe_colour object_string twelve_wide css_user_select
       session (hi_world, [save])).2 = [save] ++ delta
    ∧ depth 0 (run toRGB_red describe_colour object_string twelve_wide css_user_select
                 session (hi_world, [save])).2 = Some 1
    ∧ length delta = 7.
Proof.
  exact (X13_context_grows_balanced toRGB_red describe_colour object_string
           twelve_wide css_user_select session hi_world [save] 0 1 eq_refl).
Defined.

Lemma X15_restyle_keeps_the_text :
  _text (this (run toRGB_red describe_colour object_string twelve_wide css_user_select
                 restyle (hi_world, [])).1)
  = VStr "hi".
Proof.
  pose proof (X15_fields_and_their_writers toRGB_red describe_colour object_string
                twelve_wide css_user_select restyle hi_world []) as H.
  cbv zeta in H. destruct H as (_ & _ & _ & _ & Htext & _).
  apply Htext. unfold restyle.
  repeat (apply Forall_cons; split; [reflexivity|]). constructor.
Defined.

Lemma X16_hello_reaches_the_element :
  let s := run toRGB_red describe_colour object_string twelve_wide css_user_select
             restyle ((text describe_colour [VStr "hello"] hi_dom).2, []) in
  innerHTML (_element (this
    (Draw object_string twelve_wide {| type := VStr "DOM"; ctx := s.2 |} s.1).1))
  = VStr "hello"
  ∧ (Draw object_string twelve_wide {| type := VStr "canvas"; ctx := s.2 |} s.1).2
    = s.2 ++ [save; set_fillStyle (VStr "rgb(255,0,0)");
              set_font (VStr "  20px sans-serif");
              translate 10%float 25%float;
              fillText (VStr "hello") 0%float 0%float;
              measureText (VStr "hello"); restore].
Proof.
  assert (Forall (fun o => is_text_call o = false) restyle) as Hos.
  { unfold restyle.
    repeat (apply Forall_cons; split; [reflexivity|]). constructor. }
  assert (VStr "hello" ≠ VUndefined) as Hu by discriminate.
  assert (VStr "hello" ≠ VNull) as Hn by discriminate.
  pose proof (X16_last_text_is_drawn toRGB_red describe_colour object_string
                twelve_wide css_user_select (VStr "hello") restyle hi_dom []
                Hu Hn Hos) as H.
  cbv zeta in H |- *. destruct H as [Hdom Hcanvas]. split.
  - exact Hdom.
  - etrans; [exact Hcanvas|]. f_equal; vm_compute; reflexivity.
Defined.

Lemma X17_size_after_init_is_empty :
  (textFont object_string [VStr "size"] (init hi_centered)).1 = RValue (VStr "").
Proof.
  refine (proj1 (X17_init_fresh_descriptor object_string hi_centered) "size" _).
  do 2 right. left.
Defined.

End Text.
